(** * eww.quitterproxy: the per-thread quit/exit override proxy

    A shallow embedding of [src/eww/quitterproxy.py].  Python objects that
    can be called are kept as opaque references ([behavior]); what calling
    one does is given by an interpreter function [run] acting on the world
    outside the proxy.  Methods are computations in a small state and
    exception monad; [threading.local] is a finite map from thread
    identifiers to the value of the [quit] attribute in that thread.

    A behaviour acts on the world, not on the proxy: one that calls
    [register] or [unregister] on the proxy from inside counts as its thread
    making that call.  Threads are interleaved at the grain of whole calls
    of the proxy's methods. *)

From stdpp Require Import gmap strings list.

(** ** Python values and exceptions *)

#[local] Set Warnings "-register-all".
Inductive value : Type :=
  | VNone
  | VInt (n : Z)
  | VStr (s : string)
  | VTuple (items : list value).

Inductive exc_class : Type :=
  | SystemExit
  | AttributeError
  | TypeError
  | UserException (name : string) (base : exc_class).

#[global] Instance exc_class_eq_dec : EqDecision exc_class.
Proof. solve_decision. Defined.

(** [issubclass c base]: the test an [except base:] clause applies to the
    class of the exception in flight. *)
Fixpoint issubclass (c base : exc_class) : bool :=
  if decide (c = base) then true
  else match c with
       | UserException _ parent => issubclass parent base
       | _ => false
       end.

Record exn : Type := Exn { exn_class : exc_class; exn_args : list value }.

Definition isinstance (e : exn) (cls : exc_class) : bool :=
  issubclass (exn_class e) cls.

(** The [code] attribute of a [SystemExit] instance, as the interpreter
    derives it from the constructor arguments. *)
Definition exit_code (e : exn) : value :=
  match exn_args e with
  | [] => VNone
  | [a] => a
  | args => VTuple args
  end.

(** ** Computations that may raise *)

Inductive outcome (A : Type) : Type :=
  | Return (a : A)
  | Raise (e : exn).
Arguments Return {A} a.
Arguments Raise {A} e.

Definition M (S A : Type) : Type := S -> outcome A * S.

Definition ret {S A} (a : A) : M S A := fun s => (Return a, s).

Definition raise {S A} (e : exn) : M S A := fun s => (Raise e, s).

Definition bind {S A B} (m : M S A) (k : A -> M S B) : M S B :=
  fun s =>
    match m s with
    | (Return a, s') => k a s'
    | (Raise e, s') => (Raise e, s')
    end.

Definition gets {S A} (f : S -> A) : M S A := fun s => (Return (f s), s).

Definition modify {S} (f : S -> S) : M S value := fun s => (Return VNone, f s).

(** [try: body / except cls: handler].  The handler runs in the state the
    body left behind. *)
Definition try_except {S A} (body : M S A) (cls : exc_class) (handler : M S A)
  : M S A :=
  fun s =>
    match body s with
    | (Return a, s') => (Return a, s')
    | (Raise e, s') => if isinstance e cls then handler s' else (Raise e, s')
    end.

Declare Scope py_scope.
Delimit Scope py_scope with py.
Notation "x <~ m ;; k" := (bind m (fun x => k))
  (at level 100, m at next level, right associativity) : py_scope.
Notation "m ;;; k" := (bind m (fun _ => k))
  (at level 100, right associativity) : py_scope.
Open Scope py_scope.

(** A default argument [code=None]: [None] stands for an omitted argument. *)
Definition or_None (arg : option value) : value := default VNone arg.

(** ** safe_quit (lines 65-69) *)

Definition safe_quit {S} (code : option value) : M S value :=
  raise (Exn SystemExit [or_None code]).

(** ** The proxy *)

Definition thread : Type := nat.

Inductive level : Type := DEBUG | INFO | WARNING | ERROR.

Section Proxy.
(** References to callable objects, the world they act on, and the
    interpreter's call of such an object with one argument. *)
Context {behavior W : Type}.
Variable run : behavior -> value -> M W value.

Record call_event : Type :=
  Call { caller : thread; callee : behavior; argument : value }.

(** The proxy object ([quit_routes], [original_quit]) together with what
    surrounds it: the module's [LOGGER], the record of calls made through
    the proxy, and the outside world. *)
Record state : Type := State {
  quit_routes : gmap thread behavior;
  original_quit : behavior;
  logger : list (level * string);
  calls : list call_event;
  world : W
}.

Definition set_routes (r : gmap thread behavior) (s : state) : state :=
  State r (original_quit s) (logger s) (calls s) (world s).

Definition add_log (l : level) (msg : string) (s : state) : state :=
  State (quit_routes s) (original_quit s) (logger s ++ [(l, msg)])
        (calls s) (world s).

(** *** threading.local, attribute [quit], as seen from thread [t] *)

Definition no_attribute : exn := Exn AttributeError [VStr "quit"].

Definition getattr_quit (t : thread) : M state behavior :=
  fun s =>
    match quit_routes s !! t with
    | Some f => (Return f, s)
    | None => (Raise no_attribute, s)
    end.

Definition setattr_quit (t : thread) (f : behavior) : M state value :=
  modify (fun s => set_routes (<[t := f]> (quit_routes s)) s).

Definition delattr_quit (t : thread) : M state value :=
  fun s =>
    match quit_routes s !! t with
    | Some _ => (Return VNone, set_routes (delete t (quit_routes s)) s)
    | None => (Raise no_attribute, s)
    end.

(** [LOGGER.debug(msg)] *)
Definition LOGGER_debug (msg : string) : M state value :=
  modify (add_log DEBUG msg).

(** [f(code)] evaluated in thread [t]. *)
Definition call_object (t : thread) (f : behavior) (code : value)
  : M state value :=
  fun s =>
    let '(r, w) := run f code (world s) in
    (r, State (quit_routes s) (original_quit s) (logger s)
              (calls s ++ [Call t f code]) w).

(** *** Methods of QuitterProxy *)

(** [register] (lines 47-49) *)
Definition register (t : thread) (quit_method : behavior) : M state value :=
  setattr_quit t quit_method.

(** [unregister] (lines 51-56) *)
Definition unregister (t : thread) : M state value :=
  try_except (delattr_quit t) AttributeError
    (LOGGER_debug "unregister() called, but no quit method registered.").

(** [__call__] (lines 58-63) *)
Definition __call__ (t : thread) (code : option value) : M state value :=
  let code := or_None code in
  try_except
    (f <~ getattr_quit t ;; call_object t f code ;;; ret VNone)
    AttributeError
    (f <~ gets original_quit ;; call_object t f code ;;; ret VNone).

(** [__repr__] (lines 41-45): calls [self()] and falls off the end. *)
Definition __repr__ (t : thread) : M state value :=
  __call__ t None ;;; ret VNone.

(** [__init__] (lines 35-39), run in thread [t] on a fresh object. *)
Definition __init__ (t : thread) (original_quit : behavior)
    (lg : list (level * string)) (tr : list call_event) (w : W)
  : outcome value * state :=
  register t original_quit (State ∅ original_quit lg tr w).

(** *** Interleavings of API calls *)

Inductive api : Type :=
  | Register (quit_method : behavior)
  | Unregister
  | Invoke (code : option value)
  | Repr.

Definition perform (t : thread) (a : api) : M state value :=
  match a with
  | Register f => register t f
  | Unregister => unregister t
  | Invoke code => __call__ t code
  | Repr => __repr__ t
  end.

(** Threads take turns; whatever a call returns or raises stays inside
    its thread, the state carries over. *)
Fixpoint exec (evs : list (thread * api)) (s : state) : state :=
  match evs with
  | [] => s
  | (t, a) :: evs' => exec evs' (snd (perform t a s))
  end.

End Proxy.

Arguments call_event : clear implicits.
Arguments state : clear implicits.
Arguments api : clear implicits.

(** What [__call__] makes of the outcome of the behaviour it delegated to:
    a returned value is dropped, an exception is passed on. *)
Definition discard (r : outcome value) : outcome value :=
  match r with
  | Return _ => Return VNone
  | Raise e => Raise e
  end.

(** Does the outcome raise something an [except AttributeError:] catches? *)
Definition attribute_error (r : outcome value) : bool :=
  match r with
  | Return _ => false
  | Raise e => isinstance e AttributeError
  end.

(** An event in which thread [t] itself registers or unregisters. *)
Definition rebinds {behavior} (t : thread) (ev : thread * api behavior) : bool :=
  match ev with
  | (t', Register _) | (t', Unregister) => bool_decide (t' = t)
  | _ => false
  end.

(** An event in which thread [t] itself registers. *)
Definition registers {behavior} (t : thread) (ev : thread * api behavior) : bool :=
  match ev with
  | (t', Register _) => bool_decide (t' = t)
  | _ => false
  end.

Definition is_registration {behavior} (a : api behavior) : bool :=
  match a with
  | Register _ | Unregister => true
  | _ => false
  end.

Definition is_invocation {behavior} (a : api behavior) : bool :=
  match a with
  | Invoke _ | Repr => true
  | _ => false
  end.

(** ** Evaluating the bare name *)

(** The name of the type of a value, as error messages print it. *)
Definition type_name (v : value) : string :=
  match v with
  | VNone => "NoneType"
  | VInt _ => "int"
  | VStr _ => "str"
  | VTuple _ => "tuple"
  end.

(** [repr(proxy)] in thread [t], which is what the interactive prompt does
    with a bare [quit] or [exit]: the interpreter calls [__repr__] and
    raises [TypeError] unless what comes back is a string. *)
Definition builtin_repr {behavior W} (run : behavior -> value -> M W value)
    (t : thread) : M (state behavior W) value :=
  v <~ __repr__ run t ;;
  match v with
  | VStr _ => ret v
  | _ => raise (Exn TypeError
                  [VStr ("__repr__ returned non-string (type " +:+
                         type_name v +:+ ")")])
  end.

(** ** A console session *)

(** The part of the world the module's docstring is about: is [sys.stdin]
    still open? *)
Record console : Type := Console { stdin_closed : bool }.

(** Modelled from the spec: the platform's builtin [quit]/[exit], which is
    not part of this repository.  The module docstring (lines 9-11) and the
    spec (4.2) describe it: it raises [SystemExit] carrying the code, and
    closes stdin. *)
Definition builtin_quit (code : option value) : M console value :=
  modify (fun _ => Console true) ;;; raise (Exn SystemExit [or_None code]).

(** Callables used in the examples: the module's own [safe_quit], the
    builtin, a quit method that fails with an [AttributeError] of its own,
    and one that returns a string. *)
Inductive quitter : Type := SafeQuit | BuiltinQuit | Faulty | Polite.

Definition call_quitter (q : quitter) (code : value) : M console value :=
  match q with
  | SafeQuit => safe_quit (Some code)
  | BuiltinQuit => builtin_quit (Some code)
  | Faulty => raise (Exn AttributeError [VStr "session"])
  | Polite => ret (VStr "bye")
  end.

(** The proxy installed by thread 0 around the builtin, stdin open. *)
Definition installed : state quitter console :=
  snd (__init__ 0 BuiltinQuit [] [] (Console false)).

(** * Properties *)

(** Unfold the bodies of the methods down to the state they compute. *)
Ltac unfold_methods :=
  unfold perform, __repr__, __call__, unregister, register, try_except, bind,
    getattr_quit, delattr_quit, setattr_quit, LOGGER_debug, call_object,
    gets, modify, ret, raise, set_routes, add_log in *.

Ltac step_methods := unfold_methods; simpl in *; repeat (case_match; simpl in *).

Section ProxyFacts.
Context {behavior W : Type}.
Variable run : behavior -> value -> M W value.
Implicit Types (t : thread) (f : behavior) (s : state behavior W)
  (a : api behavior) (code : option value) (r : outcome value) (w : W).

(** ** One invocation *)

Lemma call_unregistered t code s r w :
  quit_routes s !! t = None ->
  run (original_quit s) (or_None code) (world s) = (r, w) ->
  __call__ run t code s =
    (discard r,
     State (quit_routes s) (original_quit s) (logger s)
           (calls s ++ [Call t (original_quit s) (or_None code)]) w).
Proof.
  intros Hnone Hrun. unfold_methods. rewrite Hnone. simpl.
  rewrite Hrun. by destruct r.
Qed.

Lemma call_registered t code s f r w :
  quit_routes s !! t = Some f ->
  run f (or_None code) (world s) = (r, w) ->
  attribute_error r = false ->
  __call__ run t code s =
    (discard r,
     State (quit_routes s) (original_quit s) (logger s)
           (calls s ++ [Call t f (or_None code)]) w).
Proof.
  intros Hsome Hrun Hattr. unfold_methods. rewrite Hsome, Hrun.
  destruct r as [v|e]; simpl in *; [done|]. by rewrite Hattr.
Qed.

Lemma call_registered_caught t code s f r w r2 w2 :
  quit_routes s !! t = Some f ->
  run f (or_None code) (world s) = (r, w) ->
  attribute_error r = true ->
  run (original_quit s) (or_None code) w = (r2, w2) ->
  __call__ run t code s =
    (discard r2,
     State (quit_routes s) (original_quit s) (logger s)
           (calls s ++ [Call t f (or_None code);
                        Call t (original_quit s) (or_None code)]) w2).
Proof.
  intros Hsome Hrun Hattr Hrun2. unfold_methods. rewrite Hsome, Hrun.
  destruct r as [v|e]; simpl in *; [done|]. rewrite Hattr. simpl.
  rewrite Hrun2, <- (assoc_L (++)). by destruct r2.
Qed.

(** X12. An exception of the registered method that is not an
    [AttributeError] reaches the caller as it was raised, and nothing else
    is called. *)
Lemma call_propagates t code s f e w :
  quit_routes s !! t = Some f ->
  run f (or_None code) (world s) = (Raise e, w) ->
  isinstance e AttributeError = false ->
  fst (__call__ run t code s) = Raise e /\
  calls (snd (__call__ run t code s)) =
    calls s ++ [Call t f (or_None code)].
Proof.
  intros Hsome Hrun Hattr.
  by rewrite (call_registered t code s f (Raise e) w).
Qed.

(** ** What a call leaves alone *)

Lemma call_routes t code s :
  quit_routes (snd (__call__ run t code s)) = quit_routes s.
Proof. by step_methods; simplify_eq. Qed.

Lemma call_original t code s :
  original_quit (snd (__call__ run t code s)) = original_quit s.
Proof. by step_methods; simplify_eq. Qed.

Lemma perform_original t a s :
  original_quit (snd (perform run t a s)) = original_quit s.
Proof. destruct a; by step_methods; simplify_eq. Qed.

Lemma perform_routes_other t t' a s :
  t <> t' ->
  quit_routes (snd (perform run t a s)) !! t' = quit_routes s !! t'.
Proof.
  intros Hne. destruct a; step_methods; simplify_eq; simpl;
    by rewrite ?lookup_insert_ne, ?lookup_delete_ne.
Qed.

Lemma perform_keeps_route t t' a s :
  rebinds t (t', a) = false ->
  quit_routes (snd (perform run t' a s)) !! t = quit_routes s !! t.
Proof.
  intros Hreb. destruct a; simpl in Hreb;
    try (apply bool_decide_eq_false in Hreb; by apply perform_routes_other).
  - simpl. by rewrite call_routes.
  - by step_methods; simplify_eq.
Qed.

Lemma exec_original evs s :
  original_quit (exec run evs s) = original_quit s.
Proof.
  revert s. induction evs as [|[t a] evs IH]; intros s; simpl; [done|].
  by rewrite IH, perform_original.
Qed.

Lemma exec_keeps_route t evs s :
  Forall (fun ev => rebinds t ev = false) evs ->
  quit_routes (exec run evs s) !! t = quit_routes s !! t.
Proof.
  intros Hevs. revert s.
  induction Hevs as [|[t' a] evs Hev _ IH]; intros s; simpl; [done|].
  by rewrite IH, perform_keeps_route.
Qed.

(** A call looks at nothing but the caller's own route, the stored
    default and the world. *)
Lemma call_depends t code s1 s2 :
  quit_routes s1 !! t = quit_routes s2 !! t ->
  original_quit s1 = original_quit s2 ->
  world s1 = world s2 ->
  fst (__call__ run t code s1) = fst (__call__ run t code s2) /\
  world (snd (__call__ run t code s1)) = world (snd (__call__ run t code s2)).
Proof.
  intros Hroute Horig Hworld.
  destruct (quit_routes s2 !! t) as [f|] eqn:Hf.
  - destruct (run f (or_None code) (world s2)) as [r w] eqn:Hrun.
    destruct (attribute_error r) eqn:Hattr.
    + destruct (run (original_quit s2) (or_None code) w) as [r2 w2] eqn:Hrun2.
      rewrite (call_registered_caught t code s2 f r w r2 w2) by done.
      rewrite <- Hworld in Hrun. rewrite <- Horig in Hrun2.
      by rewrite (call_registered_caught t code s1 f r w r2 w2).
    + rewrite (call_registered t code s2 f r w) by done.
      rewrite <- Hworld in Hrun.
      by rewrite (call_registered t code s1 f r w).
  - destruct (run (original_quit s2) (or_None code) (world s2))
      as [r w] eqn:Hrun.
    rewrite (call_unregistered t code s2 r w) by done.
    rewrite <- Hworld, <- Horig in Hrun.
    by rewrite (call_unregistered t code s1 r w).
Qed.

Lemma registration_world t a s :
  is_registration a = true ->
  world (snd (perform run t a s)) = world s /\
  calls (snd (perform run t a s)) = calls s.
Proof. destruct a; intros ?; by step_methods; simplify_eq. Qed.

Lemma register_routes t f s :
  quit_routes (snd (register t f s)) = <[t := f]> (quit_routes s).
Proof. done. Qed.

Lemma unregister_routes t s :
  quit_routes (snd (unregister t s)) = delete t (quit_routes s).
Proof.
  step_methods; simplify_eq; simpl; [done..|].
  by rewrite delete_id.
Qed.

Lemma unregister_returns t s : fst (unregister t s) = Return VNone.
Proof.
  unfold unregister, try_except, delattr_quit.
  by destruct (quit_routes s !! t).
Qed.

(** A call that is not a [register] of thread [t] leaves [t] without an
    entry if it had none. *)
Lemma perform_keeps_absent t t' a s :
  registers t (t', a) = false ->
  quit_routes s !! t = None ->
  quit_routes (snd (perform run t' a s)) !! t = None.
Proof.
  intros Hreg Hnone. destruct a; simpl in Hreg.
  - apply bool_decide_eq_false in Hreg.
    by rewrite perform_routes_other.
  - simpl. rewrite unregister_routes.
    destruct (decide (t' = t)) as [->|Hne].
    + apply lookup_delete_eq.
    + by rewrite lookup_delete_ne.
  - simpl. by rewrite call_routes.
  - by rewrite perform_keeps_route.
Qed.

(** X13. A thread that did not construct the proxy and has never called
    [register] has no entry, whatever it and the other threads have done
    since the construction. *)
Lemma fresh_thread_has_no_entry t0 q lg tr w0 evs t :
  t <> t0 ->
  Forall (fun ev => registers t ev = false) evs ->
  quit_routes (exec run evs (snd (__init__ t0 q lg tr w0))) !! t = None.
Proof.
  intros Hne Hevs.
  assert (Hinit : quit_routes (snd (@__init__ behavior W t0 q lg tr w0)) !! t
                  = None).
  { unfold __init__. rewrite register_routes, lookup_insert_ne by done.
    apply lookup_empty. }
  revert Hinit. generalize (snd (@__init__ behavior W t0 q lg tr w0)).
  induction Hevs as [|[t' a] evs Hev _ IH]; intros s Hs; simpl; [done|].
  apply IH. by apply perform_keeps_absent.
Qed.

(** ** The claims about the proxy *)

(** C1. After [register f] in thread [t], for as long as [t] itself
    neither registers again nor unregisters (other threads may do
    anything, and [t] may invoke the proxy), the route of [t] is [f], and
    an invocation in [t] with [code] first calls [f] with that code
    ([None] when the argument is omitted).  Unless that call fails with an
    [AttributeError], it is the only call made and its outcome and effect
    are the proxy's. *)
Theorem register_routes_invocations t f s evs code :
  Forall (fun ev => rebinds t ev = false) evs ->
  let s1 := exec run evs (snd (register t f s)) in
  let c := or_None code in
  quit_routes s1 !! t = Some f /\
  (exists rest,
      calls (snd (__call__ run t code s1)) = calls s1 ++ Call t f c :: rest) /\
  (attribute_error (fst (run f c (world s1))) = false ->
   __call__ run t code s1 =
     (discard (fst (run f c (world s1))),
      State (quit_routes s1) (original_quit s1) (logger s1)
            (calls s1 ++ [Call t f c]) (snd (run f c (world s1))))).
Proof.
  intros Hevs s1 c.
  assert (Hroute : quit_routes s1 !! t = Some f).
  { subst s1. rewrite exec_keeps_route by done.
    rewrite register_routes. apply lookup_insert_eq. }
  destruct (run f c (world s1)) as [r w] eqn:Hrun. simpl.
  split; [done|]. split.
  - destruct (attribute_error r) eqn:Hattr.
    + destruct (run (original_quit s1) c w) as [r2 w2] eqn:Hrun2.
      rewrite (call_registered_caught t code s1 f r w r2 w2) by done.
      simpl. eauto.
    + rewrite (call_registered t code s1 f r w) by done. simpl. eauto.
  - intros Hattr. by apply call_registered.
Qed.

(** C2. In any state reached from the construction of the proxy around
    [q], a thread [t] without an entry that invokes the proxy with [code]
    gets exactly one call, of [q] with that code; what [q] raises is
    raised, what it does to the world is done. *)
Theorem unregistered_thread_gets_default t0 q lg tr w0 evs t code :
  let s := exec run evs (snd (__init__ t0 q lg tr w0)) in
  let c := or_None code in
  quit_routes s !! t = None ->
  __call__ run t code s =
    (discard (fst (run q c (world s))),
     State (quit_routes s) q (logger s)
           (calls s ++ [Call t q c]) (snd (run q c (world s)))).
Proof.
  intros s c Hnone.
  assert (Horig : original_quit s = q) by (subst s; by rewrite exec_original).
  destruct (run q c (world s)) as [r w] eqn:Hrun. simpl.
  rewrite <- Horig in Hrun |- *. by apply call_unregistered.
Qed.

(** C3. [unregister] in thread [t] returns normally, and whatever other
    threads do afterwards (registrations included), [t] has no entry: its
    next invocation makes exactly one call, of the stored default. *)
Theorem unregister_restores_default t s evs code :
  Forall (fun ev => fst ev <> t) evs ->
  let s1 := exec run evs (snd (unregister t s)) in
  let c := or_None code in
  fst (unregister t s) = Return VNone /\
  quit_routes s1 !! t = None /\
  __call__ run t code s1 =
    (discard (fst (run (original_quit s) c (world s1))),
     State (quit_routes s1) (original_quit s) (logger s1)
           (calls s1 ++ [Call t (original_quit s) c])
           (snd (run (original_quit s) c (world s1)))).
Proof.
  intros Hevs s1 c.
  assert (Hroute : quit_routes s1 !! t = None).
  { subst s1. rewrite exec_keeps_route.
    - rewrite unregister_routes. apply lookup_delete_eq.
    - eapply Forall_impl; [exact Hevs|]. intros [t' a] Hne; simpl in *.
      destruct a; simpl; try done; by apply bool_decide_eq_false. }
  assert (Horig : original_quit s1 = original_quit s).
  { subst s1. rewrite exec_original.
    apply (perform_original t Unregister). }
  split; [apply unregister_returns|]. split; [done|].
  destruct (run (original_quit s) c (world s1)) as [r w] eqn:Hrun. simpl.
  rewrite <- Horig in Hrun |- *. by apply call_unregistered.
Qed.

(** C5. Registrations and unregistrations made in thread [t], however
    many, leave every other thread [t'] where it was: its entry (present
    or absent) and the stored default are the same, so an invocation in
    [t'] has the same outcome and the same effect on the world.
    [register] changes the map at [t] only, [unregister] removes [t]
    only. *)
Theorem registrations_are_thread_local t t' ops s code :
  t <> t' ->
  Forall (fun a => is_registration a = true) ops ->
  let s' := exec run (map (pair t) ops) s in
  quit_routes s' !! t' = quit_routes s !! t' /\
  original_quit s' = original_quit s /\
  fst (__call__ run t' code s') = fst (__call__ run t' code s) /\
  world (snd (__call__ run t' code s')) = world (snd (__call__ run t' code s)) /\
  (forall f, quit_routes (snd (register t f s)) = <[t := f]> (quit_routes s)) /\
  quit_routes (snd (unregister t s)) = delete t (quit_routes s).
Proof.
  intros Hne Hops s'.
  assert (Hframe : quit_routes s' !! t' = quit_routes s !! t'
                   /\ world s' = world s).
  { subst s'. revert s.
    induction Hops as [|a ops Ha _ IH]; intros s; simpl; [done|].
    destruct (IH (snd (perform run t a s))) as [-> ->].
    split; [by apply perform_routes_other|].
    by apply registration_world. }
  destruct Hframe as [Hroute Hworld].
  assert (Horig : original_quit s' = original_quit s)
    by apply exec_original.
  destruct (call_depends t' code s' s Hroute Horig Hworld) as [Hfst Hsnd].
  repeat split; try done.
  apply unregister_routes.
Qed.

(** C7. [unregister] in a thread without an entry returns normally and
    changes nothing but the log, which gains one record at DEBUG level:
    the routes of all threads, the stored default, the calls made and the
    world are as before. *)
Theorem unregister_absent_is_noop t s :
  quit_routes s !! t = None ->
  unregister t s =
    (Return VNone,
     State (quit_routes s) (original_quit s)
           (logger s ++
              [(DEBUG, "unregister() called, but no quit method registered.")])
           (calls s) (world s)).
Proof.
  intros Hnone. unfold unregister, try_except, delattr_quit.
  by rewrite Hnone.
Qed.

(** C8. Construction in thread [t] returns normally, keeps [q] as the
    stored default and leaves exactly one entry, that of [t], holding
    [q]; nothing is logged, called or done to the world. *)
Theorem init_registers_constructor t q lg tr w :
  @__init__ behavior W t q lg tr w =
    (Return VNone, State {[t := q]} q lg tr w) /\
  quit_routes (snd (@__init__ behavior W t q lg tr w)) !! t = Some q /\
  (forall t', t' <> t ->
     quit_routes (snd (@__init__ behavior W t q lg tr w)) !! t' = None) /\
  original_quit (snd (@__init__ behavior W t q lg tr w)) = q.
Proof.
  unfold __init__, register, setattr_quit, modify, set_routes; simpl.
  rewrite insert_empty. repeat split.
  - apply lookup_singleton_eq.
  - intros t' Hne. by apply lookup_singleton_ne.
Qed.

(** Called as a method, [__repr__] does what [__call__] without an
    argument does, which is what [__call__] with [None] does: same outcome,
    same calls, same final state. *)
Theorem repr_is_call_without_code t s :
  __repr__ run t s = __call__ run t None s /\
  __call__ run t None s = __call__ run t (Some VNone) s.
Proof.
  split; [|done].
  unfold __repr__, bind.
  destruct (quit_routes s !! t) as [f|] eqn:Hf.
  - destruct (run f (or_None None) (world s)) as [r w] eqn:Hrun.
    destruct (attribute_error r) eqn:Hattr.
    + destruct (run (original_quit s) (or_None None) w) as [r2 w2] eqn:Hrun2.
      rewrite (call_registered_caught t None s f r w r2 w2) by done.
      by destruct r2.
    + rewrite (call_registered t None s f r w) by done. by destruct r.
  - destruct (run (original_quit s) (or_None None) (world s))
      as [r w] eqn:Hrun.
    rewrite (call_unregistered t None s r w) by done. by destruct r.
Qed.

(** C10. When the behaviour resolved for the calling thread (its entry,
    or the stored default when it has none) returns normally from the
    call with [None], [__repr__] returns [None], which is not a string. *)
Theorem repr_returns_None t s v w :
  run (default (original_quit s) (quit_routes s !! t)) VNone (world s)
    = (Return v, w) ->
  fst (__repr__ run t s) = Return VNone /\
  (forall str, fst (__repr__ run t s) <> Return (VStr str)).
Proof.
  intros Hrun.
  assert (Hrepr : fst (__repr__ run t s) = Return VNone).
  { unfold __repr__, bind.
    destruct (quit_routes s !! t) as [f|] eqn:Hf; simpl in Hrun.
    - by rewrite (call_registered t None s f (Return v) w).
    - by rewrite (call_unregistered t None s (Return v) w). }
  split; [done|]. intros str. by rewrite Hrepr.
Qed.

End ProxyFacts.

(** ** safe_quit and the faulty quit method *)

(** C6. For every code, omitted or given, [safe_quit] does not return: it
    raises a [SystemExit] whose [code] attribute is the argument ([None]
    when omitted) and leaves the state it ran in untouched.  On a console
    the exception is the one the builtin quit raises, and stdin is as it
    was. *)
Theorem safe_quit_raises_SystemExit (S : Type) (s : S) (code : option value)
    (c : console) :
  safe_quit code s = (Raise (Exn SystemExit [or_None code]), s) /\
  exit_code (Exn SystemExit [or_None code]) = or_None code /\
  (forall v s', safe_quit code s <> (Return v, s')) /\
  fst (safe_quit code c) = fst (builtin_quit code c) /\
  stdin_closed (snd (safe_quit code c)) = stdin_closed c.
Proof. repeat split. intros v s'. unfold safe_quit, raise. congruence. Qed.

(** C4, as the code has it.  Thread 1 registers a quit method that fails
    with an [AttributeError] of its own and calls the proxy with 5.  The
    [except AttributeError] clause of [__call__], meant for the missing
    attribute, catches the error of the method: the stored default is
    called as a second behaviour, the caller sees its [SystemExit] instead,
    and stdin is closed.  With a default that returns, nothing is raised at
    all. *)
Theorem faulty_quit_method_falls_through :
  let s := snd (register 1 Faulty installed) in
  quit_routes s !! 1 = Some Faulty /\
  call_quitter Faulty (VInt 5) (world s) =
    (Raise (Exn AttributeError [VStr "session"]), world s) /\
  __call__ call_quitter 1 (Some (VInt 5)) s =
    (Raise (Exn SystemExit [VInt 5]),
     State (quit_routes s) BuiltinQuit []
           [Call 1 Faulty (VInt 5); Call 1 BuiltinQuit (VInt 5)]
           (Console true)) /\
  fst (__call__ call_quitter 1 (Some (VInt 5))
         (snd (register 1 Faulty
                 (snd (__init__ 0 Polite [] [] (Console false))))))
    = Return VNone.
Proof. repeat split. Qed.

(** C9, as the code has it.  Thread 1 registers a quit method that returns
    normally.  Calling the proxy without a code calls the method with [None]
    and returns [None].  Evaluating the bare name makes the same call and
    leaves the same state, but [__repr__] hands [None] back to [repr], which
    raises [TypeError]: the two do not have the same effect. *)
Theorem bare_name_raises_TypeError :
  let s := snd (register 1 Polite installed) in
  __call__ call_quitter 1 None s =
    (Return VNone,
     State (quit_routes s) BuiltinQuit [] [Call 1 Polite VNone]
           (Console false)) /\
  builtin_repr call_quitter 1 s =
    (Raise (Exn TypeError
              [VStr "__repr__ returned non-string (type NoneType)"]),
     State (quit_routes s) BuiltinQuit [] [Call 1 Polite VNone]
           (Console false)).
Proof. split; reflexivity. Qed.

(** ** The claims at work on a console *)

(** The scenario of the spec: thread 1 registers [safe_quit]; thread 2,
    which never registered, calls the proxy without a code and gets the
    builtin, which closes stdin; thread 1 still gets [safe_quit]. *)
Example two_thread_scenario :
  let s1 := snd (register 1 SafeQuit installed) in
  let '(r2, s2) := __call__ call_quitter 2 None s1 in
  let '(r1, s3) := __call__ call_quitter 1 None s2 in
  r2 = Raise (Exn SystemExit [VNone]) /\
  r1 = Raise (Exn SystemExit [VNone]) /\
  world s2 = Console true /\
  calls s3 = [Call 2 BuiltinQuit VNone; Call 1 SafeQuit VNone].
Proof. repeat split. Qed.

Lemma register_routes_invocations_witness :
  let evs := [(2, Register BuiltinQuit); (1, Invoke None);
              (2, Unregister); (1, Repr)] in
  let s1 := exec call_quitter evs (snd (register 1 SafeQuit installed)) in
  Forall (fun ev => rebinds 1 ev = false) evs /\
  quit_routes s1 !! 1 = Some SafeQuit /\
  fst (__call__ call_quitter 1 (Some (VInt 5)) s1)
    = Raise (Exn SystemExit [VInt 5]) /\
  world (snd (__call__ call_quitter 1 (Some (VInt 5)) s1)) = Console false.
Proof.
  intros evs s1.
  assert (Hevs : Forall (fun ev => rebinds 1 ev = false) evs)
    by (repeat constructor).
  destruct (register_routes_invocations call_quitter 1 SafeQuit installed
              evs (Some (VInt 5)) Hevs) as (Hroute & _ & Hcall).
  split; [exact Hevs|]. split; [exact Hroute|].
  fold s1 in Hcall. rewrite (Hcall eq_refl). split; reflexivity.
Defined.

Lemma unregistered_thread_gets_default_witness :
  let s := exec call_quitter [(1, Register SafeQuit); (1, Invoke None)]
             (snd (__init__ 0 BuiltinQuit [] [] (Console false))) in
  quit_routes s !! 2 = None /\
  __call__ call_quitter 2 (Some (VStr "done")) s =
    (Raise (Exn SystemExit [VStr "done"]),
     State (quit_routes s) BuiltinQuit []
           [Call 1 SafeQuit VNone; Call 2 BuiltinQuit (VStr "done")]
           (Console true)).
Proof.
  intros s. split; [reflexivity|].
  exact (unregistered_thread_gets_default call_quitter 0 BuiltinQuit [] []
           (Console false) [(1, Register SafeQuit); (1, Invoke None)]
           2 (Some (VStr "done")) eq_refl).
Defined.

Lemma unregister_restores_default_witness :
  let evs := [(2, Register Polite); (2, Invoke None); (3, Unregister)] in
  let s0 := snd (register 1 SafeQuit installed) in
  let s1 := exec call_quitter evs (snd (unregister 1 s0)) in
  Forall (fun ev => fst ev <> 1) evs /\
  fst (__call__ call_quitter 1 None s1) = Raise (Exn SystemExit [VNone]) /\
  calls (snd (__call__ call_quitter 1 None s1))
    = [Call 2 Polite VNone; Call 1 BuiltinQuit VNone].
Proof.
  intros evs s0 s1.
  assert (Hevs : Forall (fun ev => fst ev <> 1) evs)
    by (repeat constructor; simpl; lia).
  destruct (unregister_restores_default call_quitter 1 s0 evs None Hevs)
    as (_ & _ & Hcall).
  split; [exact Hevs|]. fold s1 in Hcall. rewrite Hcall. split; reflexivity.
Defined.

Lemma registrations_are_thread_local_witness :
  let ops := [Register SafeQuit; Unregister; Unregister; Register Polite] in
  let s := snd (register 2 Faulty installed) in
  let s' := exec call_quitter (map (pair 1) ops) s in
  1 <> 2 /\
  Forall (fun a => is_registration a = true) ops /\
  quit_routes s' !! 2 = Some Faulty /\
  fst (__call__ call_quitter 2 None s') = fst (__call__ call_quitter 2 None s).
Proof.
  intros ops s s'.
  assert (Hne : 1 <> 2) by lia.
  assert (Hops : Forall (fun a => is_registration a = true) ops)
    by (repeat constructor).
  destruct (registrations_are_thread_local call_quitter 1 2 ops s None
              Hne Hops) as (Hroute & _ & Hfst & _).
  split; [exact Hne|]. split; [exact Hops|].
  split; [exact (eq_trans Hroute eq_refl) | exact Hfst].
Defined.

Lemma unregister_absent_is_noop_witness :
  quit_routes installed !! 3 = None /\
  unregister 3 installed =
    (Return VNone,
     State {[0 := BuiltinQuit]} BuiltinQuit
           [(DEBUG, "unregister() called, but no quit method registered.")]
           [] (Console false)).
Proof.
  split; [reflexivity|].
  exact (unregister_absent_is_noop 3 installed eq_refl).
Defined.

Lemma repr_returns_None_witness :
  let s := snd (register 1 Polite installed) in
  call_quitter (default (original_quit s) (quit_routes s !! 1)) VNone (world s)
    = (Return (VStr "bye"), Console false) /\
  fst (__repr__ call_quitter 1 s) = Return VNone.
Proof.
  intros s. split; [reflexivity|].
  exact (proj1 (repr_returns_None call_quitter 1 s (VStr "bye")
                  (Console false) eq_refl)).
Defined.

(** * Further properties of the proxy *)

Section ProxyLaws.
Context {behavior W : Type}.
Variable run : behavior -> value -> M W value.
Implicit Types (t : thread) (f g : behavior) (s : state behavior W)
  (a : api behavior) (code : option value) (r : outcome value) (w : W).

(** ** register and unregister as operations on the calling thread's slot *)

Lemma unregister_absent t s :
  quit_routes s !! t = None ->
  unregister t s =
    (Return VNone,
     add_log DEBUG "unregister() called, but no quit method registered." s).
Proof.
  intros Hnone. unfold unregister, try_except, delattr_quit.
  by rewrite Hnone.
Qed.

Lemma unregister_present t f s :
  quit_routes s !! t = Some f ->
  unregister t s = (Return VNone, set_routes (delete t (quit_routes s)) s).
Proof.
  intros Hsome. unfold unregister, try_except, delattr_quit.
  by rewrite Hsome.
Qed.

(** X1. The last registration of a thread wins: registering [f] over an
    earlier registration [g] of the same thread leaves the very state that
    registering [f] alone leaves. *)
Theorem register_overwrites t f g s :
  register t f (snd (register t g s)) = register t f s.
Proof.
  unfold register, setattr_quit, modify, set_routes; simpl.
  by rewrite insert_insert_eq.
Qed.

(** X2. For a thread without an entry, [register] followed by [unregister]
    gives back the state it started from: routes, log, calls and world. *)
Theorem register_unregister_roundtrip t f s :
  quit_routes s !! t = None ->
  unregister t (snd (register t f s)) = (Return VNone, s).
Proof.
  intros Hnone.
  rewrite (unregister_present t f) by (rewrite register_routes; apply lookup_insert_eq).
  rewrite register_routes, delete_insert_eq, delete_id by done.
  by destruct s.
Qed.

(** X3. [unregister] in a thread that has an entry returns normally,
    removes that entry and no other, and logs nothing. *)
Theorem unregister_present_is_silent t f s :
  quit_routes s !! t = Some f ->
  unregister t s =
    (Return VNone,
     State (delete t (quit_routes s)) (original_quit s) (logger s)
           (calls s) (world s)) /\
  quit_routes (snd (unregister t s)) !! t = None /\
  (forall t', t' <> t ->
     quit_routes (snd (unregister t s)) !! t' = quit_routes s !! t').
Proof.
  intros Hsome. rewrite (unregister_present t f) by done.
  split; [done|]. simpl. split.
  - apply lookup_delete_eq.
  - intros t' Hne. by apply lookup_delete_ne.
Qed.

(** X4. A second [unregister] in a row never fails and never touches the
    routes: whatever the first one found, the second finds no entry and
    only adds the DEBUG record to the log. *)
Theorem unregister_twice t s :
  unregister t (snd (unregister t s)) =
    (Return VNone,
     add_log DEBUG "unregister() called, but no quit method registered."
       (snd (unregister t s))).
Proof.
  apply unregister_absent. rewrite unregister_routes. apply lookup_delete_eq.
Qed.

(** X5. Registrations and unregistrations of two different threads
    commute: whichever of the two calls comes first, the final state
    (routes, log, calls, world) is the same. *)
Theorem registrations_commute t t' a a' s :
  t <> t' ->
  is_registration a = true ->
  is_registration a' = true ->
  exec run [(t, a); (t', a')] s = exec run [(t', a'); (t, a)] s.
Proof.
  intros Hne Ha Ha'.
  assert (Hne' : t' <> t) by done.
  destruct a as [f| | |], a' as [g| | |]; try done; cbn [exec perform].
  - unfold register, setattr_quit, modify, set_routes; simpl.
    by rewrite insert_insert_ne.
  - destruct (quit_routes s !! t') as [g|] eqn:Hg.
    + rewrite (unregister_present t' g s) by done.
      rewrite (unregister_present t' g)
        by (by rewrite register_routes, lookup_insert_ne).
      unfold register, setattr_quit, modify, set_routes; simpl.
      by rewrite delete_insert_ne.
    + rewrite (unregister_absent t' s) by done.
      rewrite (unregister_absent t')
        by (by rewrite register_routes, lookup_insert_ne).
      done.
  - destruct (quit_routes s !! t) as [f|] eqn:Hf.
    + rewrite (unregister_present t f s) by done.
      rewrite (unregister_present t f)
        by (by rewrite register_routes, lookup_insert_ne).
      unfold register, setattr_quit, modify, set_routes; simpl.
      by rewrite delete_insert_ne.
    + rewrite (unregister_absent t s) by done.
      rewrite (unregister_absent t)
        by (by rewrite register_routes, lookup_insert_ne).
      done.
  - destruct (quit_routes s !! t) as [f|] eqn:Hf;
      destruct (quit_routes s !! t') as [g|] eqn:Hg.
    + rewrite (unregister_present t f s), (unregister_present t' g s) by done.
      rewrite (unregister_present t' g), (unregister_present t f)
        by (simpl; by rewrite lookup_delete_ne).
      unfold set_routes; simpl. by rewrite delete_delete.
    + rewrite (unregister_present t f s), (unregister_absent t' s) by done.
      rewrite (unregister_absent t'), (unregister_present t f)
        by (simpl; by rewrite ?lookup_delete_ne).
      done.
    + rewrite (unregister_absent t s), (unregister_present t' g s) by done.
      rewrite (unregister_present t' g), (unregister_absent t)
        by (simpl; by rewrite ?lookup_delete_ne).
      done.
    + rewrite (unregister_absent t s), (unregister_absent t' s) by done.
      rewrite (unregister_absent t'), (unregister_absent t) by done.
      done.
Qed.

(** ** What invoking the proxy does and does not do *)

Lemma call_logger t code s :
  logger (snd (__call__ run t code s)) = logger s.
Proof. by step_methods; simplify_eq. Qed.

Lemma invocation_registry t a s :
  is_invocation a = true ->
  quit_routes (snd (perform run t a s)) = quit_routes s /\
  logger (snd (perform run t a s)) = logger s.
Proof.
  destruct a; intros Ha; try done; simpl.
  - by rewrite call_routes, call_logger.
  - pose proof (call_routes run t None s) as Hr.
    pose proof (call_logger t None s) as Hl.
    unfold __repr__, bind, ret.
    by destruct (__call__ run t None s) as [[v|e] s'].
Qed.

(** X6. The proxy's own code in [__call__] and [__repr__] registers,
    unregisters and logs nothing.  With behaviours that act on the outside
    world only, that is, that do not call back into the proxy, any number
    of invocations in any threads leave the routes of all threads, the
    stored default and the log as they were. *)
Theorem invocations_leave_registry evs s :
  Forall (fun ev => is_invocation (snd ev) = true) evs ->
  quit_routes (exec run evs s) = quit_routes s /\
  original_quit (exec run evs s) = original_quit s /\
  logger (exec run evs s) = logger s.
Proof.
  intros Hevs. split; [|split; [apply exec_original|]]; revert s;
    induction Hevs as [|[t a] evs Hev _ IH]; intros s; simpl in *; try done;
    rewrite IH; by apply invocation_registry.
Qed.

(** X7. When the method registered for the calling thread raises an
    [AttributeError], or an exception of a class derived from it, the proxy
    catches it and calls the stored default with the same code, in the
    world the method left behind; the caller gets the outcome of the
    default, and the error of the method is lost. *)
Theorem attribute_error_reaches_default t code s f e w :
  quit_routes s !! t = Some f ->
  run f (or_None code) (world s) = (Raise e, w) ->
  isinstance e AttributeError = true ->
  __call__ run t code s =
    (discard (fst (run (original_quit s) (or_None code) w)),
     State (quit_routes s) (original_quit s) (logger s)
           (calls s ++ [Call t f (or_None code);
                        Call t (original_quit s) (or_None code)])
           (snd (run (original_quit s) (or_None code) w))).
Proof.
  intros Hsome Hrun Hattr.
  destruct (run (original_quit s) (or_None code) w) as [r2 w2] eqn:Hrun2.
  by apply (call_registered_caught run t code s f (Raise e) w r2 w2).
Qed.

(** The three ways an invocation can go. *)
Lemma call_cases t code s :
  let c := or_None code in
  let f := default (original_quit s) (quit_routes s !! t) in
  (exists r w,
      run f c (world s) = (r, w) /\
      (quit_routes s !! t = None \/ attribute_error r = false) /\
      __call__ run t code s =
        (discard r,
         State (quit_routes s) (original_quit s) (logger s)
               (calls s ++ [Call t f c]) w)) \/
  (exists r w r2 w2,
      quit_routes s !! t = Some f /\
      run f c (world s) = (r, w) /\ attribute_error r = true /\
      run (original_quit s) c w = (r2, w2) /\
      __call__ run t code s =
        (discard r2,
         State (quit_routes s) (original_quit s) (logger s)
               (calls s ++ [Call t f c; Call t (original_quit s) c]) w2)).
Proof.
  intros c f. subst c f.
  destruct (quit_routes s !! t) as [f|] eqn:Hf; simpl.
  - destruct (run f (or_None code) (world s)) as [r w] eqn:Hrun.
    destruct (attribute_error r) eqn:Hattr.
    + destruct (run (original_quit s) (or_None code) w) as [r2 w2] eqn:Hrun2.
      right. exists r, w, r2, w2. repeat split; try done.
      by apply (call_registered_caught run t code s f r w r2 w2).
    + left. exists r, w. repeat split; [by right|].
      by apply call_registered.
  - destruct (run (original_quit s) (or_None code) (world s))
      as [r w] eqn:Hrun.
    left. exists r, w. repeat split; [by left|].
    by apply call_unregistered.
Qed.

(** X8. Whatever the delegated behaviour returns is dropped: when
    [__call__] returns at all, it returns [None]. *)
Theorem call_returns_only_None t code s v :
  fst (__call__ run t code s) = Return v -> v = VNone.
Proof.
  destruct (call_cases t code s) as [(r & w & _ & _ & ->)
                                    |(r & w & r2 & w2 & _ & _ & _ & _ & ->)];
    simpl.
  - destruct r; simpl; congruence.
  - destruct r2; simpl; congruence.
Qed.

(** X9. One invocation calls the behaviour resolved for the calling thread
    (its entry, else the stored default) once, in that thread and with the
    given code.  It makes one more call, of the stored default with the same
    code, exactly when the thread has an entry and that entry raised an
    [AttributeError].  It never makes a third call. *)
Theorem call_makes_one_or_two_calls t code s :
  let c := or_None code in
  let f := default (original_quit s) (quit_routes s !! t) in
  let caught :=
    bool_decide (is_Some (quit_routes s !! t)) &&
    attribute_error (fst (run f c (world s))) in
  calls (snd (__call__ run t code s)) =
    calls s ++ Call t f c ::
      (if caught then [Call t (original_quit s) c] else []).
Proof.
  intros c f caught. subst c f caught.
  destruct (call_cases t code s) as [(r & w & Hrun & Hwhy & ->)
                                    |(r & w & r2 & w2 & Hf & Hrun & Hattr & _ & ->)];
    simpl; rewrite Hrun; simpl.
  - destruct Hwhy as [-> | ->]; simpl; [done|].
    by rewrite andb_false_r.
  - by rewrite Hf, Hattr.
Qed.

(** X10. With [safe_quit] registered for the calling thread, invoking the
    proxy raises [SystemExit] carrying the code ([None] when omitted),
    calls nothing else and leaves the world, stdin included, as it was. *)
Theorem safe_quit_through_proxy t f code s :
  (forall c w, run f c w = safe_quit (Some c) w) ->
  quit_routes s !! t = Some f ->
  __call__ run t code s =
    (Raise (Exn SystemExit [or_None code]),
     State (quit_routes s) (original_quit s) (logger s)
           (calls s ++ [Call t f (or_None code)]) (world s)).
Proof.
  intros Hsafe Hsome.
  by rewrite (call_registered run t code s f
                (Raise (Exn SystemExit [or_None code])) (world s)).
Qed.

(** ** Where entries come from *)

Lemma perform_entry_origin t t' a s f :
  quit_routes (snd (perform run t' a s)) !! t = Some f ->
  quit_routes s !! t = Some f \/ (t', a) = (t, Register f).
Proof.
  destruct a as [g| |code|].
  - cbn [perform]. rewrite register_routes.
    destruct (decide (t' = t)) as [->|Hne].
    + rewrite lookup_insert_eq. intros [= ->]. by right.
    + rewrite lookup_insert_ne by done. by left.
  - cbn [perform]. rewrite unregister_routes.
    destruct (decide (t' = t)) as [->|Hne].
    + by rewrite lookup_delete_eq.
    + rewrite lookup_delete_ne by done. by left.
  - cbn [perform]. rewrite call_routes. by left.
  - destruct (invocation_registry t' Repr s eq_refl) as [-> _]. by left.
Qed.

(** X11. Entries are made by [register] and by construction only, and each
    thread's by itself: an entry [f] found for thread [t] in a state reached
    from the construction of the proxy is either the constructor's own
    entry for the default, or was registered by [t] in one of the calls made
    since. *)
Theorem entries_come_from_register t0 q lg tr w0 evs t f :
  quit_routes (exec run evs (snd (__init__ t0 q lg tr w0))) !! t = Some f ->
  (t = t0 /\ f = q) \/ In (t, Register f) evs.
Proof.
  assert (Hgen : forall evs s,
             quit_routes (exec run evs s) !! t = Some f ->
             quit_routes s !! t = Some f \/ In (t, Register f) evs).
  { clear evs. induction evs as [|[t' a] evs IH]; intros s Hs; simpl in *.
    - by left.
    - destruct (IH _ Hs) as [Hstep|Hin]; [|by right; right].
      destruct (perform_entry_origin t t' a s f Hstep) as [Hbefore|Heq].
      + by left.
      + right. by left. }
  intros Hentry. destruct (Hgen _ _ Hentry) as [Hinit|Hin]; [|by right].
  left. unfold __init__ in Hinit. rewrite register_routes in Hinit.
  cbn [quit_routes] in Hinit.
  destruct (decide (t0 = t)) as [->|Hne].
  - rewrite lookup_insert_eq in Hinit. by simplify_eq.
  - by rewrite lookup_insert_ne, lookup_empty in Hinit.
Qed.

(** ** The bare name against the explicit call *)

(** [repr] makes the calls and leaves the state of the explicit call
    without a code.  An exception of the behaviour reaches the caller either
    way; where the explicit call returns, [repr] raises [TypeError]. *)
Lemma builtin_repr_against_call t s :
  snd (builtin_repr run t s) = snd (__call__ run t None s) /\
  (forall e, fst (__call__ run t None s) = Raise e ->
             fst (builtin_repr run t s) = Raise e) /\
  (forall v, fst (__call__ run t None s) = Return v ->
             fst (builtin_repr run t s) =
               Raise (Exn TypeError
                        [VStr "__repr__ returned non-string (type NoneType)"])).
Proof.
  unfold builtin_repr, bind.
  rewrite (proj1 (repr_is_call_without_code run t s)).
  destruct (call_cases t None s) as [(r & w & _ & _ & ->)
                                    |(r & w & r2 & w2 & _ & _ & _ & _ & ->)];
    [destruct r as [v|e] | destruct r2 as [v|e]]; simpl;
    (split; [done|]; split; [intros ? Heq | intros ? Heq; try done];
     by simplify_eq).
Qed.

End ProxyLaws.

(** ** The further properties at work on a console *)

Lemma register_unregister_roundtrip_witness :
  quit_routes installed !! 1 = None /\
  unregister 1 (snd (register 1 SafeQuit installed)) = (Return VNone, installed).
Proof.
  split; [reflexivity|].
  exact (register_unregister_roundtrip 1 SafeQuit installed eq_refl).
Defined.

Lemma unregister_present_is_silent_witness :
  let s := snd (register 1 SafeQuit installed) in
  quit_routes s !! 1 = Some SafeQuit /\
  quit_routes (snd (unregister 1 s)) !! 1 = None /\
  logger (snd (unregister 1 s)) = [].
Proof.
  intros s.
  destruct (unregister_present_is_silent 1 SafeQuit s eq_refl)
    as (Heq & Hgone & _).
  split; [reflexivity|]. split; [exact Hgone|]. rewrite Heq. reflexivity.
Defined.

Lemma registrations_commute_witness :
  1 <> 2 /\
  exec call_quitter [(1, Register SafeQuit); (2, Unregister)] installed =
  exec call_quitter [(2, Unregister); (1, Register SafeQuit)] installed.
Proof.
  assert (Hne : 1 <> 2) by lia.
  split; [exact Hne|].
  exact (registrations_commute call_quitter 1 2 (Register SafeQuit) Unregister
           installed Hne eq_refl eq_refl).
Defined.

Lemma invocations_leave_registry_witness :
  let evs := [(1, Invoke (Some (VInt 2))); (0, Repr); (1, Repr)] in
  Forall (fun ev => is_invocation (snd ev) = true) evs /\
  quit_routes (exec call_quitter evs installed) = quit_routes installed /\
  logger (exec call_quitter evs installed) = [].
Proof.
  intros evs.
  assert (Hevs : Forall (fun ev => is_invocation (snd ev) = true) evs)
    by (repeat constructor).
  destruct (invocations_leave_registry call_quitter evs installed Hevs)
    as (Hroutes & _ & Hlog).
  split; [exact Hevs|]. split; [exact Hroutes | exact Hlog].
Defined.

Lemma attribute_error_reaches_default_witness :
  let s := snd (register 1 Faulty installed) in
  quit_routes s !! 1 = Some Faulty /\
  isinstance (Exn AttributeError [VStr "session"]) AttributeError = true /\
  fst (__call__ call_quitter 1 (Some (VInt 5)) s)
    = Raise (Exn SystemExit [VInt 5]) /\
  world (snd (__call__ call_quitter 1 (Some (VInt 5)) s)) = Console true.
Proof.
  intros s. split; [reflexivity|]. split; [reflexivity|].
  rewrite (attribute_error_reaches_default call_quitter 1 (Some (VInt 5)) s
             Faulty (Exn AttributeError [VStr "session"]) (Console false)
             eq_refl eq_refl eq_refl).
  split; reflexivity.
Defined.

Lemma call_returns_only_None_witness :
  let s := snd (register 1 Polite installed) in
  call_quitter Polite VNone (world s) = (Return (VStr "bye"), Console false) /\
  fst (__call__ call_quitter 1 None s) = Return VNone.
Proof.
  intros s. split; [reflexivity|].
  destruct (fst (__call__ call_quitter 1 None s)) as [v|e] eqn:Hcall.
  - f_equal. exact (call_returns_only_None call_quitter 1 None s v Hcall).
  - discriminate Hcall.
Defined.

Lemma safe_quit_through_proxy_witness :
  let s := snd (register 1 SafeQuit installed) in
  (forall c w, call_quitter SafeQuit c w = safe_quit (Some c) w) /\
  quit_routes s !! 1 = Some SafeQuit /\
  __call__ call_quitter 1 (Some (VInt 7)) s =
    (Raise (Exn SystemExit [VInt 7]),
     State (quit_routes s) BuiltinQuit [] [Call 1 SafeQuit (VInt 7)]
           (Console false)).
Proof.
  intros s.
  assert (Hsafe : forall c w, call_quitter SafeQuit c w = safe_quit (Some c) w)
    by reflexivity.
  split; [exact Hsafe|]. split; [reflexivity|].
  exact (safe_quit_through_proxy call_quitter 1 SafeQuit (Some (VInt 7)) s
           Hsafe eq_refl).
Defined.

Lemma entries_come_from_register_witness :
  let evs := [(2, Register Polite); (1, Register SafeQuit); (2, Unregister)] in
  quit_routes (exec call_quitter evs
                 (snd (__init__ 0 BuiltinQuit [] [] (Console false)))) !! 1
    = Some SafeQuit /\
  ((1 = 0 /\ SafeQuit = BuiltinQuit) \/ In (1, Register SafeQuit) evs).
Proof.
  intros evs. split; [reflexivity|].
  exact (entries_come_from_register call_quitter 0 BuiltinQuit [] []
           (Console false) evs 1 SafeQuit eq_refl).
Defined.

Lemma call_propagates_witness :
  let s := snd (register 1 SafeQuit installed) in
  quit_routes s !! 1 = Some SafeQuit /\
  isinstance (Exn SystemExit [VInt 3]) AttributeError = false /\
  fst (__call__ call_quitter 1 (Some (VInt 3)) s)
    = Raise (Exn SystemExit [VInt 3]) /\
  calls (snd (__call__ call_quitter 1 (Some (VInt 3)) s))
    = [Call 1 SafeQuit (VInt 3)].
Proof.
  intros s. split; [reflexivity|]. split; [reflexivity|].
  exact (call_propagates call_quitter 1 (Some (VInt 3)) s SafeQuit
           (Exn SystemExit [VInt 3]) (Console false) eq_refl eq_refl eq_refl).
Defined.

Lemma fresh_thread_has_no_entry_witness :
  let evs := [(1, Register SafeQuit); (2, Unregister); (2, Invoke None)] in
  2 <> 0 /\
  Forall (fun ev => registers 2 ev = false) evs /\
  quit_routes (exec call_quitter evs
                 (snd (__init__ 0 BuiltinQuit [] [] (Console false)))) !! 2
    = None.
Proof.
  intros evs.
  assert (Hne : 2 <> 0) by lia.
  assert (Hevs : Forall (fun ev => registers 2 ev = false) evs)
    by (repeat constructor).
  split; [exact Hne|]. split; [exact Hevs|].
  exact (fresh_thread_has_no_entry call_quitter 0 BuiltinQuit [] []
           (Console false) evs 2 Hne Hevs).
Defined.
